(** * tier-mem: a shallow embedding of [src/tier-mem.py]

    The script lists the running VMs of an ESXi host over SSH, builds a
    map from Cartel id to VM name, rewrites the [vm.<id>] tokens in the
    [memstats] output with the names, keeps the data rows and prints them
    as an aligned table.

    Python [str] values are modelled as [list ascii] (the commands emit
    ASCII text).  Character classes follow CPython on ASCII input:
    [str.isspace], [str.strip], [str.split()] and the regex class [\s]
    all use the same whitespace set, [\d] is [0-9]. *)

From Stdlib Require Import Ascii String List Bool Arith Lia.
Import ListNotations.

Definition str := list ascii.

(** String literals of the script, as [str]. *)
Definition lit (s : string) : str := list_ascii_of_string s.

(** ** Character classes *)

(** [Py_UNICODE_ISSPACE] restricted to ASCII: space, \t \n \v \f \r and
    the separators \x1c .. \x1f. *)
Definition is_space (c : ascii) : bool :=
  let n := nat_of_ascii c in
  ((n =? 32) || ((9 <=? n) && (n <=? 13)) || ((28 <=? n) && (n <=? 31))).

Definition is_nonspace (c : ascii) : bool := negb (is_space c).

Definition is_digit (c : ascii) : bool :=
  let n := nat_of_ascii c in ((48 <=? n) && (n <=? 57)).

(** ** [str.strip()] *)

Fixpoint lstrip (s : str) : str :=
  match s with
  | [] => []
  | c :: r => if is_space c then lstrip r else s
  end.

Definition rstrip (s : str) : str := rev (lstrip (rev s)).

Definition strip (s : str) : str := rstrip (lstrip s).

(** ** [str.split()] : split on runs of whitespace, no empty fields.
    [cur] holds the current field, reversed. *)

Fixpoint split_go (s : str) (cur : str) : list str :=
  match s with
  | [] => match cur with [] => [] | _ => [rev cur] end
  | c :: r =>
      if is_space c
      then match cur with
           | [] => split_go r []
           | _ => rev cur :: split_go r []
           end
      else split_go r (c :: cur)
  end.

Definition split_ws (s : str) : list str := split_go s [].

(** ** [str.split(sep)] with a one-character separator: every separator
    cuts, empty fields are kept, [""] gives [[""]]. *)

Fixpoint split_char_go (sep : ascii) (s : str) (cur : str) : list str :=
  match s with
  | [] => [rev cur]
  | c :: r =>
      if Ascii.eqb c sep then rev cur :: split_char_go sep r []
      else split_char_go sep r (c :: cur)
  end.

Definition split_char (sep : ascii) (s : str) : list str :=
  split_char_go sep s [].

(** ** [str.replace(old, new)]: left-to-right, non-overlapping.
    [old] is always [vm.<id>] here, hence never empty; the fuel
    [S (length s)] is enough since every step consumes a character. *)

Fixpoint strip_prefix (p s : str) : option str :=
  match p, s with
  | [], _ => Some s
  | a :: p', b :: s' => if Ascii.eqb a b then strip_prefix p' s' else None
  | _ :: _, [] => None
  end.

Fixpoint replace_fuel (fuel : nat) (old new s : str) : str :=
  match fuel with
  | 0 => s
  | S f =>
      match s with
      | [] => []
      | c :: r =>
          match strip_prefix old s with
          | Some rest => new ++ replace_fuel f old new rest
          | None => c :: replace_fuel f old new r
          end
      end
  end.

Definition replace (s old new : str) : str :=
  replace_fuel (S (length s)) old new s.

(** ** Python [dict] with insertion order: an association list; storing
    an existing key updates its value in place, a new key is appended. *)

Definition dict := list (str * str).

Fixpoint dict_set (k v : str) (d : dict) : dict :=
  match d with
  | [] => [(k, v)]
  | (k', v') :: d' =>
      if list_eq_dec ascii_dec k k' then (k, v) :: d'
      else (k', v') :: dict_set k v d'
  end.

Fixpoint dict_get (k : str) (d : dict) : option str :=
  match d with
  | [] => None
  | (k', v') :: d' => if list_eq_dec ascii_dec k k' then Some v' else dict_get k d'
  end.

Definition dict_values (d : dict) : list str := map snd d.

(** ** [get_vm_mapping], lines 48-56: the parsing loop over the CSV
    output of [esxcli --formatter csv vm process list]. *)

(** One CSV line: [Some (vm_id, vm_name)] when it has at least five
    comma-separated fields. *)
Definition parse_vm_line (line : str) : option (str * str) :=
  let parts := split_char ","%char (strip line) in
  if 5 <=? length parts
  then Some (strip (nth 4 parts []), strip (nth 1 parts []))
  else None.

Definition vm_mapping_step (d : dict) (line : str) : dict :=
  match parse_vm_line line with
  | Some (vm_id, vm_name) => dict_set vm_id vm_name d
  | None => d
  end.

(** [for line in output[1:]] *)
Definition parse_vm_mapping (output : list str) : dict :=
  fold_left vm_mapping_step (skipn 1 output) [].

(** ** [retrieve_memory_stats], lines 67-74: replace every [vm.<id>] by
    the VM name, pairs taken in the dict's iteration order, then strip. *)

Definition replace_line (vm_mapping : dict) (line : str) : str :=
  fold_left (fun l '(vm_id, vm_name) => replace l (lit "vm." ++ vm_id) vm_name)
            vm_mapping line.

Definition replace_vm_ids (vm_mapping : dict) (memstats_output : list str) : list str :=
  map (fun line => strip (replace_line vm_mapping line)) memstats_output.

(** ** [filter_relevant_lines], lines 76-87.

    The regex [^\S+\s+\d+\s+\d+\s+\d+\s+\d+$] under [re.match]
    (anchored at the start).  [plus cls k s] is the backtracking meaning
    of [cls+] followed by the rest [k] of the pattern; [$] matches at the
    end or before a final newline. *)

Fixpoint plus (cls : ascii -> bool) (k : str -> bool) (s : str) : bool :=
  match s with
  | [] => false
  | c :: r => cls c && (k r || plus cls k r)
  end.

Definition dollar (s : str) : bool :=
  match s with
  | [] => true
  | [c] => Ascii.eqb c "010"%char
  | _ => false
  end.

Definition data_pattern (s : str) : bool :=
  plus is_nonspace
    (plus is_space (plus is_digit
    (plus is_space (plus is_digit
    (plus is_space (plus is_digit
    (plus is_space (plus is_digit dollar)))))))) s.

Fixpoint filter_relevant_lines (memstats_output : list str) : list str :=
  match memstats_output with
  | [] => []
  | line :: rest =>
      if data_pattern (strip line)
      then strip line :: filter_relevant_lines rest
      else filter_relevant_lines rest
  end.

(** ** Table rendering, lines 116-128 *)

(** [format_spec {:<w}]: pad on the right with spaces, never truncate. *)
Definition ljust (w : nat) (s : str) : str := s ++ repeat " "%char (w - length s).

(** [header_format.format] on a list of arguments: five positional fields; fewer than five
    arguments raise [IndexError] ([None]), extra ones are ignored. *)
Definition format_row (w : nat) (args : list str) : option str :=
  match args with
  | a :: b :: c :: d :: e :: _ =>
      Some (ljust w a ++ lit "  " ++ ljust 15 b ++ lit "  " ++ ljust 15 c
            ++ lit "  " ++ ljust 20 d ++ lit "  " ++ ljust 20 e)
  | _ => None
  end.

Definition header_titles : list str :=
  map lit ["VM Name"; "MemSize (MB)"; "Active (MB)";
           "Tier0 Consumed (MB)"; "Tier1 Consumed (MB)"]%string.

(** The header row, [header_format.format("VM Name", ...)]. *)
Definition header_line (w : nat) : str :=
  ljust w (lit "VM Name") ++ lit "  " ++ ljust 15 (lit "MemSize (MB)") ++ lit "  "
     ++ ljust 15 (lit "Active (MB)") ++ lit "  " ++ ljust 20 (lit "Tier0 Consumed (MB)")
     ++ lit "  " ++ ljust 20 (lit "Tier1 Consumed (MB)").

Definition separator (w : nat) : str := repeat "-"%char (w + 90).

(** ** The run as a trace of observable events with Python exceptions.

    [M A] is a writer/exception monad: the events emitted so far and
    either a value or the exception in flight. *)

Inductive event : Type :=
  | Print (s : str)          (* a line on standard output *)
  | RunCmd (cmd : str)       (* [ssh_client.exec_command(cmd)] *)
  | Close.                   (* [ssh_client.close()] *)

Inductive exn : Type :=
  | XmlError        (* [ET.parse] / missing element in the credentials *)
  | SSHException    (* [exec_command] failing on the channel *)
  | IndexError      (* [str.format] with too few arguments *)
  | ValueError.     (* [max()] of an empty sequence *)

Definition M (A : Type) : Type := (list event * (A + exn))%type.

Definition ret {A} (a : A) : M A := ([], inl a).

Definition bind {A B} (m : M A) (f : A -> M B) : M B :=
  match m with
  | (t, inl a) => let (t', r) := f a in (t ++ t', r)
  | (t, inr e) => (t, inr e)
  end.

Definition raise {A} (e : exn) : M A := ([], inr e).

Definition emit (ev : event) : M unit := ([ev], inl tt).

Definition print (s : str) : M unit := emit (Print s).

(** [try: body finally: fin]: [fin] always runs; an exception of [fin]
    replaces the outcome of [body]. *)
Definition try_finally {A} (body : M A) (fin : M unit) : M A :=
  let (t, r) := body in
  let (t', r') := fin in
  (t ++ t', match r' with inl _ => r | inr e => inr e end).

Notation "x <- c ;; k" := (bind c (fun x => k))
  (at level 61, c at next level, right associativity).
Notation "c ;; k" := (bind c (fun _ => k))
  (at level 61, right associativity).

Fixpoint for_each {A} (xs : list A) (body : A -> M unit) : M unit :=
  match xs with
  | [] => ret tt
  | x :: xs' => body x ;; for_each xs' body
  end.

(** ** The host, as seen by the script *)

Inductive reply : Type :=
  | Replies (stdout_lines stderr_lines : list str)
  | Raises.

Inductive conn_reply : Type :=
  | Connected
  | Refused (msg : str).

Record world : Type := {
  credentials : option (str * str * str);  (* host, username, password *)
  connection : conn_reply;
  esxcli_reply : reply;
  memstats_reply : reply
}.

Definition esxcli_command : str := lit "esxcli --formatter csv vm process list".

Definition memstats_command : str :=
  lit "memstats -r vmtier-stats -u mb -s name:memSize:active:tier0Consumed:tier1Consumed".

Definition read_credentials_from_xml (w : world) : M (str * str * str) :=
  match credentials w with
  | Some c => ret c
  | None => raise XmlError
  end.

(** Returns whether a client was obtained ([None] in Python otherwise). *)
Definition connect_to_esxi (w : world) (hostname : str) : M bool :=
  print (lit "Connecting to " ++ hostname ++ lit "...") ;;
  match connection w with
  | Connected => print (lit "Connected successfully!") ;; ret true
  | Refused msg => print (lit "Failed to connect: " ++ msg) ;; ret false
  end.

Definition stderr_report (stderr_lines : list str) : list event :=
  match stderr_lines with
  | [] => []
  | _ => [Print (lit "Errors occurred while executing command: " ++ concat stderr_lines)]
  end.

Definition execute_command (command : str) (r : reply) : M (list str) :=
  emit (RunCmd command) ;;
  match r with
  | Raises => raise SSHException
  | Replies out err => (stderr_report err, inl out)
  end.

Definition get_vm_mapping (w : world) : M dict :=
  print (lit "Retrieving VM names and IDs...") ;;
  output <- execute_command esxcli_command (esxcli_reply w) ;;
  ret (parse_vm_mapping output).

Definition retrieve_memory_stats (w : world) (vm_mapping : dict) : M (list str) :=
  print (lit "Retrieving memory stats for VMs backed by NVMe...") ;;
  memstats_output <- execute_command memstats_command (memstats_reply w) ;;
  ret (replace_vm_ids vm_mapping memstats_output).

(** Python's [max] over a generator. *)
Definition py_max (xs : list nat) : M nat :=
  match xs with
  | [] => raise ValueError
  | x :: xs' => ret (fold_left Nat.max xs' x)
  end.

(** The body of [for line in relevant_lines], lines 127-128. *)
Definition row_step (width : nat) (line : str) : M unit :=
  match format_row width (split_ws line) with
  | Some row => print row
  | None => raise IndexError
  end.

Definition print_table (width : nat) (relevant_lines : list str) : M unit :=
  print (lit "Memory stats:") ;;
  hdr <- match format_row width header_titles with
         | Some s => ret s | None => raise IndexError end ;;
  print hdr ;;
  print (separator width) ;;
  for_each relevant_lines (row_step width).

Arguments print_table : simpl never.

Definition close_session : M unit :=
  print (lit "Closing SSH connection...") ;;
  emit Close ;;
  print (lit "SSH connection closed.").

(** The [try] block of [main], lines 102-128; a [return] inside it ends
    the block normally. *)
Definition main_try_block (w : world) : M unit :=
  vm_mapping <- get_vm_mapping w ;;
  match vm_mapping with
  | [] => print (lit "No VMs are currently running on the ESXi host.")
  | _ =>
      memstats_output <- retrieve_memory_stats w vm_mapping ;;
      let relevant_lines := filter_relevant_lines memstats_output in
      max_vm_name_length <- py_max (map (@length ascii) (dict_values vm_mapping)) ;;
      print_table max_vm_name_length relevant_lines
  end.

Definition main (w : world) : M unit :=
  creds <- read_credentials_from_xml w ;;
  let '(esxi_host, _, _) := creds in
  ok <- connect_to_esxi w esxi_host ;;
  if negb ok then print (lit "Exiting due to connection failure.")
  else try_finally (main_try_block w) close_session.

(** ** Stage 1 as the specification words it (for comparison only)

    The specification asks for the substitutions in descending order of
    identifier length; [sort_desc_len] is a stable sort on that key, as
    [sorted(items, key=lambda kv: len(kv[0]), reverse=True)]. *)

Fixpoint insert_desc_len (p : str * str) (l : dict) : dict :=
  match l with
  | [] => [p]
  | q :: l' =>
      if length (fst q) <=? length (fst p) then p :: q :: l'
      else q :: insert_desc_len p l'
  end.

Definition sort_desc_len (d : dict) : dict := fold_right insert_desc_len [] d.

Definition spec_replace_vm_ids (vm_mapping : dict) (memstats_output : list str) : list str :=
  replace_vm_ids (sort_desc_len vm_mapping) memstats_output.

(** Identifiers listed by non-increasing length. *)
Fixpoint ids_desc_len (d : dict) : Prop :=
  match d with
  | [] => True
  | p :: d' =>
      match d' with
      | [] => True
      | q :: _ => length (fst q) <= length (fst p)
      end /\ ids_desc_len d'
  end.

(** ** The shape of a data row, in the words of the specification:
    one non-whitespace token, then four integer tokens, separated by
    runs of whitespace. *)

Definition all_of (cls : ascii -> bool) (s : str) : Prop :=
  s <> [] /\ forallb cls s = true.

Definition row_shape (s : str) : Prop :=
  exists t w1 d1 w2 d2 w3 d3 w4 d4,
    s = t ++ w1 ++ d1 ++ w2 ++ d2 ++ w3 ++ d3 ++ w4 ++ d4 /\
    all_of is_nonspace t /\
    all_of is_space w1 /\ all_of is_digit d1 /\
    all_of is_space w2 /\ all_of is_digit d2 /\
    all_of is_space w3 /\ all_of is_digit d3 /\
    all_of is_space w4 /\ all_of is_digit d4.

(** ** Sample runs *)

Definition e2e_world : world := {|
  credentials := Some (lit "esxi01", lit "root", lit "secret");
  connection := Connected;
  esxcli_reply := Replies
    (map lit ["WorldID,DisplayName,ConfigFile,ProcessID,VMXCartelID"; "1,web01,a.vmx,0,100"; "2,db01,b.vmx,0,200"]%string) [];
  memstats_reply := Replies
    (map lit ["vm.100 2048 512 100 20"; "vm.200 4096 1024 200 40"; "garbage line"]%string) []
|}.

Definition reply_stdout (r : reply) : list str :=
  match r with Replies out _ => out | Raises => [] end.

Definition esxcli_stdout (w : world) : list str := reply_stdout (esxcli_reply w).

Definition memstats_stdout (w : world) : list str := reply_stdout (memstats_reply w).

Example e2e_rows :
  filter_relevant_lines (replace_vm_ids (parse_vm_mapping (map lit ["h"; "1,web01,a,0,100"; "2,db01,b,0,200"]%string))
     (map lit ["vm.100 2048 512 100 20"; "vm.200 4096 1024 200 40"; "garbage line"]%string))
  = map lit ["web01 2048 512 100 20"; "db01 4096 1024 200 40"]%string.
Proof. vm_compute. reflexivity. Qed.

(** * Properties *)

(** ** Character classes *)

Lemma digit_not_space (c : ascii) : is_digit c = true -> is_space c = false.
Proof. destruct c as [[] [] [] [] [] [] [] []]; vm_compute; congruence. Qed.

Lemma newline_space : is_space "010"%char = true.
Proof. reflexivity. Qed.

Lemma forallb_digit_nonspace (d : str) :
  forallb is_digit d = true -> forallb is_nonspace d = true.
Proof.
  induction d as [|c d IH]; simpl; auto.
  intros H; apply andb_true_iff in H as [Hc Hd].
  unfold is_nonspace at 1; rewrite (digit_not_space c Hc); simpl; auto.
Qed.

(** ** The regex matcher *)

Lemma plus_spec (cls : ascii -> bool) (k : str -> bool) (s : str) :
  plus cls k s = true <-> exists p r, s = p ++ r /\ all_of cls p /\ k r = true.
Proof.
  unfold all_of; induction s as [|c s IH]; simpl.
  - split; [discriminate|].
    intros (p & r & Hs & (Hp & _) & _).
    destruct p; [congruence | discriminate].
  - rewrite andb_true_iff, orb_true_iff, IH. split.
    + intros [Hc [Hk | (p & r & -> & (Hp & Hf) & Hk)]].
      * exists [c], s; simpl; rewrite Hc; repeat split; auto; discriminate.
      * exists (c :: p), r; simpl; rewrite Hc, Hf; repeat split; auto; discriminate.
    + intros (p & r & Hs & (Hp & Hf) & Hk).
      destruct p as [|c' p]; [contradiction|].
      simpl in Hs, Hf; injection Hs as <- ->.
      apply andb_true_iff in Hf as [Hc Hf]; split; auto.
      destruct p as [|c'' p]; [left; exact Hk|].
      right; exists (c'' :: p), r; repeat split; auto; discriminate.
Qed.

Lemma dollar_cases (e : str) : dollar e = true -> e = [] \/ e = ["010"%char].
Proof.
  destruct e as [|c [|c' e]]; simpl; auto; try discriminate.
  intros H; apply Ascii.eqb_eq in H; subst; auto.
Qed.

(** A match, spelled out: token, run, number, ... , number, end. *)
Lemma data_pattern_decompose (s : str) :
  data_pattern s = true ->
  exists t w1 d1 w2 d2 w3 d3 w4 d4 e,
    s = t ++ w1 ++ d1 ++ w2 ++ d2 ++ w3 ++ d3 ++ w4 ++ d4 ++ e /\
    all_of is_nonspace t /\
    all_of is_space w1 /\ all_of is_digit d1 /\
    all_of is_space w2 /\ all_of is_digit d2 /\
    all_of is_space w3 /\ all_of is_digit d3 /\
    all_of is_space w4 /\ all_of is_digit d4 /\
    (e = [] \/ e = ["010"%char]).
Proof.
  unfold data_pattern; intros H.
  apply plus_spec in H as (t & s1 & -> & Ht & H).
  apply plus_spec in H as (w1 & s2 & -> & Hw1 & H).
  apply plus_spec in H as (d1 & s3 & -> & Hd1 & H).
  apply plus_spec in H as (w2 & s4 & -> & Hw2 & H).
  apply plus_spec in H as (d2 & s5 & -> & Hd2 & H).
  apply plus_spec in H as (w3 & s6 & -> & Hw3 & H).
  apply plus_spec in H as (d3 & s7 & -> & Hd3 & H).
  apply plus_spec in H as (w4 & s8 & -> & Hw4 & H).
  apply plus_spec in H as (d4 & e & -> & Hd4 & H).
  exists t, w1, d1, w2, d2, w3, d3, w4, d4, e.
  split; [reflexivity|].
  do 9 (split; [assumption|]).
  apply dollar_cases; assumption.
Qed.

Lemma data_pattern_compose t w1 d1 w2 d2 w3 d3 w4 d4 e :
  all_of is_nonspace t ->
  all_of is_space w1 -> all_of is_digit d1 ->
  all_of is_space w2 -> all_of is_digit d2 ->
  all_of is_space w3 -> all_of is_digit d3 ->
  all_of is_space w4 -> all_of is_digit d4 ->
  dollar e = true ->
  data_pattern (t ++ w1 ++ d1 ++ w2 ++ d2 ++ w3 ++ d3 ++ w4 ++ d4 ++ e) = true.
Proof.
  intros; unfold data_pattern.
  repeat (apply plus_spec; eexists _, _; split; [reflexivity | split; [eassumption|]]).
  assumption.
Qed.

(** ** Whitespace splitting *)

Lemma split_go_nonspace (p r cur : str) :
  forallb is_nonspace p = true -> split_go (p ++ r) cur = split_go r (rev p ++ cur).
Proof.
  revert cur; induction p as [|c p IH]; intros cur H; simpl; auto.
  apply andb_true_iff in H as [Hc H]; unfold is_nonspace in Hc.
  apply negb_true_iff in Hc; rewrite Hc, IH by auto.
  rewrite <- app_assoc; reflexivity.
Qed.

Lemma split_go_space_empty (w r : str) :
  forallb is_space w = true -> split_go (w ++ r) [] = split_go r [].
Proof.
  induction w as [|c w IH]; intros H; simpl; auto.
  apply andb_true_iff in H as [Hc H]; rewrite Hc; auto.
Qed.

Lemma split_go_space (w r cur : str) :
  all_of is_space w -> cur <> [] -> split_go (w ++ r) cur = rev cur :: split_go r [].
Proof.
  intros [Hne H] Hcur; destruct w as [|c w]; [contradiction|].
  simpl in *; apply andb_true_iff in H as [Hc H]; rewrite Hc.
  destruct cur as [|x cur]; [contradiction|].
  rewrite split_go_space_empty; auto.
Qed.

Lemma split_go_end (e cur : str) :
  (e = [] \/ e = ["010"%char]) -> cur <> [] -> split_go e cur = [rev cur].
Proof.
  intros [-> | ->] Hcur; destruct cur as [|x cur]; try contradiction; reflexivity.
Qed.

Lemma rev_ne (s : str) : s <> [] -> rev s ++ [] <> [].
Proof.
  rewrite app_nil_r; intros H E; apply H.
  rewrite <- (rev_involutive s), E; reflexivity.
Qed.

Lemma all_of_digit_nonspace (d : str) : all_of is_digit d -> forallb is_nonspace d = true.
Proof. intros [_ H]; auto using forallb_digit_nonspace. Qed.

(** Every string the pattern accepts splits into its five tokens. *)
Lemma data_pattern_split (s : str) :
  data_pattern s = true ->
  exists t d1 d2 d3 d4,
    split_ws s = [t; d1; d2; d3; d4] /\ all_of is_nonspace t /\
    all_of is_digit d1 /\ all_of is_digit d2 /\ all_of is_digit d3 /\ all_of is_digit d4.
Proof.
  intros H.
  destruct (data_pattern_decompose s H)
    as (t & w1 & d1 & w2 & d2 & w3 & d3 & w4 & d4 & e & -> & Ht & Hw1 & Hd1 & Hw2 & Hd2
        & Hw3 & Hd3 & Hw4 & Hd4 & He).
  exists t, d1, d2, d3, d4.
  split; [| do 4 (split; [assumption|]); assumption].
  unfold split_ws.
  rewrite split_go_nonspace by apply Ht.
  rewrite split_go_space by (auto; apply rev_ne, Ht).
  rewrite split_go_nonspace by (apply all_of_digit_nonspace; auto).
  rewrite split_go_space by (auto; apply rev_ne, Hd1).
  rewrite split_go_nonspace by (apply all_of_digit_nonspace; auto).
  rewrite split_go_space by (auto; apply rev_ne, Hd2).
  rewrite split_go_nonspace by (apply all_of_digit_nonspace; auto).
  rewrite split_go_space by (auto; apply rev_ne, Hd3).
  rewrite split_go_nonspace by (apply all_of_digit_nonspace; auto).
  rewrite split_go_end by (auto; apply rev_ne, Hd4).
  rewrite !app_nil_r, !rev_involutive; reflexivity.
Qed.

(** ** Stripping *)

Lemma lstrip_head (s r : str) (c : ascii) : lstrip s = c :: r -> is_space c = false.
Proof.
  induction s as [|x s IH]; simpl; [discriminate|].
  destruct (is_space x) eqn:E; auto.
  intros H; injection H as <- _; exact E.
Qed.

(** A stripped line does not end in whitespace. *)
Lemma strip_last (s p : str) (c : ascii) : strip s = p ++ [c] -> is_space c = false.
Proof.
  unfold strip, rstrip; intros H.
  apply (f_equal (@rev ascii)) in H.
  rewrite rev_involutive, rev_app_distr in H; simpl in H.
  eapply lstrip_head; exact H.
Qed.

(** On a stripped line the pattern's [$] can only match at the very end,
    and the match is exactly the row shape. *)
Lemma data_pattern_strip (line : str) :
  data_pattern (strip line) = true <-> row_shape (strip line).
Proof.
  split.
  - intros H.
    destruct (data_pattern_decompose _ H)
      as (t & w1 & d1 & w2 & d2 & w3 & d3 & w4 & d4 & e & Hs & Ht & Hw1 & Hd1 & Hw2 & Hd2
          & Hw3 & Hd3 & Hw4 & Hd4 & [-> | ->]).
    + exists t, w1, d1, w2, d2, w3, d3, w4, d4.
      rewrite !app_nil_r in Hs. repeat (split; [eassumption|]); assumption.
    + exfalso.
      rewrite !app_assoc in Hs.
      apply strip_last in Hs; rewrite newline_space in Hs; discriminate.
  - intros (t & w1 & d1 & w2 & d2 & w3 & d3 & w4 & d4 & Hs & Ht & Hw1 & Hd1 & Hw2 & Hd2
            & Hw3 & Hd3 & Hw4 & Hd4).
    rewrite Hs, <- (app_nil_r d4), !app_assoc, <- !app_assoc.
    apply data_pattern_compose; auto.
Qed.

Lemma filter_relevant_lines_in (memstats_output : list str) (line : str) :
  In line (filter_relevant_lines memstats_output) ->
  exists raw, In raw memstats_output /\ line = strip raw /\ data_pattern line = true.
Proof.
  induction memstats_output as [|raw rest IH]; simpl; [contradiction|].
  destruct (data_pattern (strip raw)) eqn:E.
  - intros [<- | H]; [exists raw; auto|].
    destruct (IH H) as (r & ? & ? & ?); exists r; auto.
  - intros H; destruct (IH H) as (r & ? & ? & ?); exists r; auto.
Qed.

(** ** P5: the three sample lines of the specification *)

Example p5_row : data_pattern (lit "diskvm   512   100   50   10") = true.
Proof. reflexivity. Qed.

Example p5_four_tokens : data_pattern (lit "diskvm 512 100 50") = false.
Proof. reflexivity. Qed.

Example p5_non_numeric : data_pattern (lit "diskvm 512 100 50 ten") = false.
Proof. reflexivity. Qed.

(** ** C3 *)

(** C3: a raw line is kept by [filter_relevant_lines] (stripped) exactly
    when, after stripping, it is one non-whitespace token followed by four
    decimal tokens separated by runs of whitespace; any other line is
    dropped, and the function returns normally in both cases. *)
Theorem filter_keeps_exactly_data_rows (line : str) (rest : list str) :
  (row_shape (strip line) ->
     filter_relevant_lines (line :: rest) = strip line :: filter_relevant_lines rest) /\
  (~ row_shape (strip line) ->
     filter_relevant_lines (line :: rest) = filter_relevant_lines rest).
Proof.
  simpl; split; intros H.
  - apply data_pattern_strip in H; rewrite H; reflexivity.
  - destruct (data_pattern (strip line)) eqn:E; auto.
    exfalso; apply H, data_pattern_strip, E.
Qed.

Lemma filtered_line_split (memstats_output : list str) (line : str) :
  In line (filter_relevant_lines memstats_output) ->
  exists t d1 d2 d3 d4, split_ws line = [t; d1; d2; d3; d4].
Proof.
  intros H.
  destruct (filter_relevant_lines_in _ _ H) as (raw & _ & _ & Hp).
  destruct (data_pattern_split _ Hp) as (t & d1 & d2 & d3 & d4 & Hs & _).
  exists t, d1, d2, d3, d4; exact Hs.
Qed.

(** ** C10 *)

(** C10: every line kept by the filter splits on whitespace into exactly
    five tokens, so the five-field row format never raises on it. *)
Theorem filtered_line_five_columns (memstats_output : list str) (line : str) :
  In line (filter_relevant_lines memstats_output) ->
  length (split_ws line) = 5 /\ forall w, format_row w (split_ws line) <> None.
Proof.
  intros H.
  destruct (filtered_line_split _ _ H) as (t & d1 & d2 & d3 & d4 & ->).
  split; [reflexivity | intros w; discriminate].
Qed.

Lemma filtered_line_five_columns_witness :
  In (lit "web01 2048 512 100 20")
     (filter_relevant_lines (map lit ["  web01 2048 512 100 20
"; "Total 1"]%string)) /\
  length (split_ws (lit "web01 2048 512 100 20")) = 5 /\
  (forall w, format_row w (split_ws (lit "web01 2048 512 100 20")) <> None).
Proof.
  assert (H : In (lit "web01 2048 512 100 20")
     (filter_relevant_lines (map lit ["  web01 2048 512 100 20
"; "Total 1"]%string))) by (vm_compute; left; reflexivity).
  split; [exact H | apply (filtered_line_five_columns _ _ H)].
Defined.

(** ** Substitution (stage 1) *)

Definition contains (s sub : str) : Prop := exists a b, s = a ++ sub ++ b.

Lemma strip_prefix_some (p s r : str) : strip_prefix p s = Some r -> s = p ++ r.
Proof.
  revert s; induction p as [|a p IH]; intros [|b s]; simpl; try congruence.
  destruct (Ascii.eqb a b) eqn:E; [|discriminate].
  apply Ascii.eqb_eq in E as ->; intros H; rewrite (IH s H); reflexivity.
Qed.

Lemma replace_fuel_absent (fuel : nat) (old new s : str) :
  ~ contains s old -> replace_fuel fuel old new s = s.
Proof.
  revert s; induction fuel as [|f IH]; intros s Hs; simpl; auto.
  destruct s as [|c r]; auto.
  destruct (strip_prefix old (c :: r)) as [rest|] eqn:E.
  - exfalso; apply Hs; exists [], rest; exact (strip_prefix_some _ _ _ E).
  - rewrite IH; auto.
    intros (a & b & Hr); apply Hs; exists (c :: a), b; rewrite Hr; reflexivity.
Qed.

Lemma replace_absent (old new s : str) : ~ contains s old -> replace s old new = s.
Proof. apply replace_fuel_absent. Qed.

Lemma replace_line_absent (vm_mapping : dict) (line : str) :
  (forall vm_id vm_name, In (vm_id, vm_name) vm_mapping -> ~ contains line (lit "vm." ++ vm_id)) ->
  replace_line vm_mapping line = line.
Proof.
  unfold replace_line; induction vm_mapping as [|[vm_id vm_name] d IH]; intros H; simpl; auto.
  rewrite replace_absent by (apply (H vm_id vm_name); left; reflexivity).
  apply IH; intros i n Hin; apply (H i n); right; exact Hin.
Qed.

Lemma sort_desc_len_sorted (d : dict) : ids_desc_len d -> sort_desc_len d = d.
Proof.
  induction d as [|p d IH]; simpl; auto.
  intros [Hp Hd]; rewrite (IH Hd).
  destruct d as [|q d]; simpl; auto.
  apply Nat.leb_le in Hp; rewrite Hp; reflexivity.
Qed.

(** ** The mapping builder *)

Lemma dict_get_set_same (k v : str) (d : dict) : dict_get k (dict_set k v d) = Some v.
Proof.
  induction d as [|[k' v'] d IH]; simpl.
  - destruct (list_eq_dec ascii_dec k k); congruence.
  - destruct (list_eq_dec ascii_dec k k') as [->|Hne]; simpl.
    + destruct (list_eq_dec ascii_dec k' k'); congruence.
    + destruct (list_eq_dec ascii_dec k k'); [contradiction | exact IH].
Qed.

Lemma dict_get_set_other (k k' v : str) (d : dict) :
  k <> k' -> dict_get k (dict_set k' v d) = dict_get k d.
Proof.
  intros Hk; induction d as [|[a b] d IH]; simpl.
  - destruct (list_eq_dec ascii_dec k k'); congruence.
  - destruct (list_eq_dec ascii_dec k' a) as [->|Hne]; simpl.
    + destruct (list_eq_dec ascii_dec k a); congruence.
    + destruct (list_eq_dec ascii_dec k a); auto.
Qed.

Lemma mapping_steps_other (vm_id : str) (lines : list str) (d : dict) :
  (forall l n, In l lines -> parse_vm_line l <> Some (vm_id, n)) ->
  dict_get vm_id (fold_left vm_mapping_step lines d) = dict_get vm_id d.
Proof.
  revert d; induction lines as [|l lines IH]; intros d H; simpl; auto.
  rewrite IH by (intros l' n Hin; apply H; right; exact Hin).
  unfold vm_mapping_step.
  destruct (parse_vm_line l) as [[k v]|] eqn:E; auto.
  apply dict_get_set_other; intros <-.
  apply (H l v); [left; reflexivity | exact E].
Qed.

Lemma skipn_one_app (pre : list str) (l1 : str) (rest : list str) :
  exists ys, skipn 1 (pre ++ l1 :: rest) = ys ++ rest.
Proof.
  destruct pre as [|p pre]; simpl.
  - exists []; reflexivity.
  - exists (pre ++ [l1]); rewrite <- app_assoc; reflexivity.
Qed.

(** ** C1 *)

Definition c1_listing : list str :=
  map lit ["WorldID,DisplayName,ConfigFile,ProcessID,VMXCartelID";
           "1,small,s.vmx,0,1"; "2,big,b.vmx,0,10"]%string.

(** C1, as stated, fails: with identifiers [1] and [10] listed in that
    order, the token [vm.10] is rewritten by the pair of [1] into
    [small0], where descending-length substitution gives [big]. *)
Lemma stage1_prefix_shadowing :
  replace_vm_ids (parse_vm_mapping c1_listing) [lit "vm.10 2048 512 100 20"]
    = [lit "small0 2048 512 100 20"] /\
  spec_replace_vm_ids (parse_vm_mapping c1_listing) [lit "vm.10 2048 512 100 20"]
    = [lit "big 2048 512 100 20"].
Proof. split; vm_compute; reflexivity. Qed.

(** C1 (amended): stage 1 applies the pairs in the mapping's insertion
    order; when that order already lists the identifiers by non-increasing
    length, the result is that of descending-length substitution. *)
Theorem stage1_insertion_order_desc_len (vm_mapping : dict) (memstats_output : list str) :
  ids_desc_len vm_mapping ->
  replace_vm_ids vm_mapping memstats_output = spec_replace_vm_ids vm_mapping memstats_output.
Proof.
  intros H; unfold spec_replace_vm_ids; rewrite sort_desc_len_sorted by exact H.
  reflexivity.
Qed.

Lemma stage1_insertion_order_desc_len_witness :
  ids_desc_len [(lit "10", lit "big"); (lit "1", lit "small")] /\
  replace_vm_ids [(lit "10", lit "big"); (lit "1", lit "small")] [lit "vm.10 2048 512 100 20"]
  = spec_replace_vm_ids [(lit "10", lit "big"); (lit "1", lit "small")]
      [lit "vm.10 2048 512 100 20"].
Proof.
  assert (H : ids_desc_len [(lit "10", lit "big"); (lit "1", lit "small")])
    by (simpl; repeat split; auto).
  split; [exact H | apply stage1_insertion_order_desc_len; exact H].
Defined.

(** ** C2 *)

Definition no_vm_tokens (vm_mapping : dict) (memstats_output : list str) : Prop :=
  forall line vm_id vm_name,
    In line memstats_output -> In (vm_id, vm_name) vm_mapping ->
    ~ contains line (lit "vm." ++ vm_id).

Definition c2_mapping : dict := [(lit "100", lit "web01")].

(** [readlines] keeps the newline of each line. *)
Definition c2_output : list str := [lit "Total 4096" ++ ["010"%char]].

Lemma c2_output_no_tokens : no_vm_tokens c2_mapping c2_output.
Proof.
  intros line vm_id vm_name [<-|[]] [E|[]]; injection E as <- <-.
  intros (a & b & H).
  destruct a as [|x1 [|x2 [|x3 [|x4 [|x5 [|x6 [|x7 [|x8 [|x9 [|x10 [|x11 a]]]]]]]]]]];
    simpl in H; try discriminate.
  apply (f_equal (@length ascii)) in H; simpl in H; rewrite length_app in H; simpl in H; lia.
Qed.

(** C2, as stated, fails: a line without any [vm.<id>] token still comes
    out of stage 1 stripped of its newline. *)
Lemma stage1_not_identity :
  no_vm_tokens c2_mapping c2_output /\
  replace_vm_ids c2_mapping c2_output <> c2_output.
Proof.
  split; [exact c2_output_no_tokens | vm_compute; discriminate].
Qed.

(** C2 (amended): without any [vm.<id>] token of the mapping in the
    input, stage 1 only strips each line of its surrounding whitespace. *)
Theorem stage1_without_tokens_strips (vm_mapping : dict) (memstats_output : list str) :
  no_vm_tokens vm_mapping memstats_output ->
  replace_vm_ids vm_mapping memstats_output = map strip memstats_output.
Proof.
  unfold replace_vm_ids; intros H.
  apply map_ext_in; intros line Hin.
  rewrite replace_line_absent; auto.
  intros vm_id vm_name Hm; apply (H line vm_id vm_name); auto.
Qed.

Lemma stage1_without_tokens_strips_witness :
  no_vm_tokens c2_mapping c2_output /\
  replace_vm_ids c2_mapping c2_output = map strip c2_output.
Proof.
  split; [exact c2_output_no_tokens | apply stage1_without_tokens_strips; exact c2_output_no_tokens].
Defined.

(** ** C5 *)

(** C5: when two listing lines [l1] (earlier) and [l2] (later) yield the
    same identifier and no line after [l2] yields it again, the mapping
    holds the name of [l2]: the later line overwrites the earlier one. *)
Theorem vm_mapping_last_write_wins
    (pre mid post : list str) (l1 l2 vm_id name1 name2 : str) :
  parse_vm_line l1 = Some (vm_id, name1) ->
  parse_vm_line l2 = Some (vm_id, name2) ->
  (forall l n, In l post -> parse_vm_line l <> Some (vm_id, n)) ->
  dict_get vm_id (parse_vm_mapping (pre ++ l1 :: mid ++ l2 :: post)) = Some name2.
Proof.
  intros _ H2 Hpost; unfold parse_vm_mapping.
  destruct (skipn_one_app pre l1 (mid ++ l2 :: post)) as [ys ->].
  rewrite app_assoc, fold_left_app; simpl.
  rewrite mapping_steps_other by exact Hpost.
  unfold vm_mapping_step at 1; rewrite H2.
  apply dict_get_set_same.
Qed.

Lemma vm_mapping_last_write_wins_witness :
  parse_vm_line (lit "1,web01,a.vmx,0,100") = Some (lit "100", lit "web01") /\
  parse_vm_line (lit "3,web02,c.vmx,0,100") = Some (lit "100", lit "web02") /\
  dict_get (lit "100")
    (parse_vm_mapping ([lit "WorldID,DisplayName,ConfigFile,ProcessID,VMXCartelID"]
                       ++ lit "1,web01,a.vmx,0,100" :: [lit "2,db01,b.vmx,0,200"]
                       ++ lit "3,web02,c.vmx,0,100" :: [lit "4,db02,d.vmx,0,300"]))
  = Some (lit "web02").
Proof.
  split; [vm_compute; reflexivity|]. split; [vm_compute; reflexivity|].
  apply (vm_mapping_last_write_wins _ _ _ _ _ _ (lit "web01")).
  - vm_compute; reflexivity.
  - vm_compute; reflexivity.
  - intros l n [<-|[]]; vm_compute; congruence.
Defined.

(** ** C6 *)

(** C6: a listing of zero or one line (the header) gives the empty
    mapping; the header is skipped without failing. *)
Theorem vm_mapping_short_listing (output : list str) :
  length output <= 1 -> parse_vm_mapping output = [].
Proof.
  destruct output as [|x [|y output]]; simpl; intros H; auto; lia.
Qed.

Lemma vm_mapping_short_listing_witness :
  length [lit "1,web01,a.vmx,0,100"] <= 1 /\ parse_vm_mapping [lit "1,web01,a.vmx,0,100"] = [].
Proof.
  split; [simpl; lia | apply vm_mapping_short_listing; simpl; lia].
Defined.

(** ** The run *)

Definition close_trace : list event :=
  [Print (lit "Closing SSH connection..."); Close; Print (lit "SSH connection closed.")].

Definition connect_trace (esxi_host : str) : list event :=
  [Print (lit "Connecting to " ++ esxi_host ++ lit "..."); Print (lit "Connected successfully!")].

Lemma bind_ok {A B} (t : list event) (a : A) (f : A -> M B) :
  bind (t, inl a) f = (t ++ fst (f a), snd (f a)).
Proof. simpl; destruct (f a); reflexivity. Qed.

Lemma try_finally_close {A} (body : M A) :
  try_finally body close_session = (fst body ++ close_trace, snd body).
Proof. destruct body; reflexivity. Qed.

Lemma main_connected (w : world) (esxi_host esxi_user esxi_pass : str) :
  credentials w = Some (esxi_host, esxi_user, esxi_pass) ->
  connection w = Connected ->
  main w = (connect_trace esxi_host ++ fst (main_try_block w) ++ close_trace,
            snd (main_try_block w)).
Proof.
  intros Hc Hconn; unfold main, read_credentials_from_xml, connect_to_esxi.
  rewrite Hc, Hconn; simpl.
  rewrite try_finally_close; reflexivity.
Qed.

(** ** C9 *)

(** C9: once the SSH client is connected, every run ends with the closing
    of the session, whatever the [try] block did: a normal end, the early
    return on an empty mapping or an exception, which is re-raised after
    the session is closed. *)
Theorem session_closed_on_every_path (w : world) (esxi_host esxi_user esxi_pass : str) :
  credentials w = Some (esxi_host, esxi_user, esxi_pass) ->
  connection w = Connected ->
  exists pre, main w = (pre ++ close_trace, snd (main_try_block w)).
Proof.
  intros Hc Hconn; rewrite (main_connected w _ _ _ Hc Hconn).
  exists (connect_trace esxi_host ++ fst (main_try_block w)).
  rewrite <- app_assoc; reflexivity.
Qed.

Definition failing_stats_world : world := {|
  credentials := Some (lit "esxi01", lit "root", lit "secret");
  connection := Connected;
  esxcli_reply := Replies
    (map lit ["WorldID,DisplayName,ConfigFile,ProcessID,VMXCartelID"; "1,web01,a.vmx,0,100"]%string) [];
  memstats_reply := Raises
|}.

Lemma session_closed_on_every_path_witness :
  credentials failing_stats_world = Some (lit "esxi01", lit "root", lit "secret") /\
  connection failing_stats_world = Connected /\
  snd (main_try_block failing_stats_world) = inr SSHException /\
  exists pre, main failing_stats_world
              = (pre ++ close_trace, snd (main_try_block failing_stats_world)).
Proof.
  split; [reflexivity|]. split; [reflexivity|]. split; [vm_compute; reflexivity|].
  apply (session_closed_on_every_path _ (lit "esxi01") (lit "root") (lit "secret"));
    reflexivity.
Defined.

(** ** C8 *)

(** C8: when the listing yields the empty mapping, the run prints the
    "no VMs" message and closes the session; the statistics command is
    never run and no table (title, header, rule or row) is printed. *)
Theorem empty_mapping_no_render
    (w : world) (esxi_host esxi_user esxi_pass : str) (out err : list str) :
  credentials w = Some (esxi_host, esxi_user, esxi_pass) ->
  connection w = Connected ->
  esxcli_reply w = Replies out err ->
  parse_vm_mapping out = [] ->
  main w =
    (connect_trace esxi_host
       ++ [Print (lit "Retrieving VM names and IDs..."); RunCmd esxcli_command]
       ++ stderr_report err
       ++ [Print (lit "No VMs are currently running on the ESXi host.")]
       ++ close_trace,
     inl tt).
Proof.
  intros Hc Hconn Hr Hm; rewrite (main_connected w _ _ _ Hc Hconn).
  unfold main_try_block, get_vm_mapping, execute_command, print, emit.
  rewrite Hr; simpl; rewrite Hm; simpl.
  rewrite !app_nil_r, <- !app_assoc; reflexivity.
Qed.

Definition no_vm_world : world := {|
  credentials := Some (lit "esxi01", lit "root", lit "secret");
  connection := Connected;
  esxcli_reply := Replies [lit "WorldID,DisplayName,ConfigFile,ProcessID,VMXCartelID"] [];
  memstats_reply := Raises
|}.

Lemma empty_mapping_no_render_witness :
  parse_vm_mapping [lit "WorldID,DisplayName,ConfigFile,ProcessID,VMXCartelID"] = [] /\
  main no_vm_world =
    (connect_trace (lit "esxi01")
       ++ [Print (lit "Retrieving VM names and IDs..."); RunCmd esxcli_command]
       ++ stderr_report []
       ++ [Print (lit "No VMs are currently running on the ESXi host.")]
       ++ close_trace,
     inl tt).
Proof.
  split; [reflexivity|].
  apply (empty_mapping_no_render _ (lit "esxi01") (lit "root") (lit "secret")
           [lit "WorldID,DisplayName,ConfigFile,ProcessID,VMXCartelID"] []);
    reflexivity.
Defined.

(** ** The table *)

Lemma fold_max_bound (xs : list nat) (a : nat) :
  a <= fold_left Nat.max xs a /\ (forall x, In x xs -> x <= fold_left Nat.max xs a).
Proof.
  revert a; induction xs as [|x xs IH]; intros a; simpl; [split; [lia | tauto]|].
  destruct (IH (Nat.max a x)) as [H1 H2]; split; [lia|].
  intros y [<-|Hy]; [lia | auto].
Qed.

Lemma fold_max_attained (xs : list nat) (a : nat) : In (fold_left Nat.max xs a) (a :: xs).
Proof.
  revert a; induction xs as [|x xs IH]; intros a; simpl; [auto|].
  destruct (IH (Nat.max a x)) as [E|E]; rewrite <- ?E.
  - destruct (Nat.max_spec a x) as [[_ ->]|[_ ->]]; auto.
  - auto.
Qed.

Lemma for_each_rows (width : nat) (lines : list str) :
  (forall line, In line lines -> exists t d1 d2 d3 d4, split_ws line = [t; d1; d2; d3; d4]) ->
  exists rows,
    Forall2 (fun line row => format_row width (split_ws line) = Some row) lines rows /\
    for_each lines (row_step width) = (map Print rows, inl tt).
Proof.
  induction lines as [|line lines IH]; intros H; simpl.
  - exists []; split; [constructor | reflexivity].
  - destruct IH as (rows & Hf & He); [intros l Hl; apply H; right; exact Hl|].
    destruct (H line (or_introl eq_refl)) as (t & d1 & d2 & d3 & d4 & Hs).
    destruct (format_row width (split_ws line)) as [row|] eqn:E;
      [|rewrite Hs in E; discriminate].
    exists (row :: rows); split; [constructor; assumption|].
    unfold row_step at 1; rewrite E, He; reflexivity.
Qed.

Lemma print_table_rows (width : nat) (lines : list str) (rows : list str) :
  for_each lines (row_step width) = (map Print rows, inl tt) ->
  print_table width lines =
    ([Print (lit "Memory stats:"); Print (header_line width); Print (separator width)]
       ++ map Print rows, inl tt).
Proof. intros H; unfold print_table; simpl; rewrite H; reflexivity. Qed.

Definition table_prefix (esxi_host : str) (err serr : list str) : list event :=
  connect_trace esxi_host
    ++ [Print (lit "Retrieving VM names and IDs..."); RunCmd esxcli_command]
    ++ stderr_report err
    ++ [Print (lit "Retrieving memory stats for VMs backed by NVMe..."); RunCmd memstats_command]
    ++ stderr_report serr.

Lemma main_table (w : world) (esxi_host esxi_user esxi_pass : str) (out err sout serr : list str) :
  credentials w = Some (esxi_host, esxi_user, esxi_pass) ->
  connection w = Connected ->
  esxcli_reply w = Replies out err ->
  memstats_reply w = Replies sout serr ->
  parse_vm_mapping out <> [] ->
  exists width rows,
    py_max (map (@length ascii) (dict_values (parse_vm_mapping out))) = ([], inl width) /\
    format_row width header_titles = Some (header_line width) /\
    Forall2 (fun line row => format_row width (split_ws line) = Some row)
      (filter_relevant_lines (replace_vm_ids (parse_vm_mapping out) sout)) rows /\
    main w =
      (table_prefix esxi_host err serr
         ++ [Print (lit "Memory stats:"); Print (header_line width); Print (separator width)]
         ++ map Print rows ++ close_trace,
       inl tt).
Proof.
  intros Hc Hconn Hr Hs Hne; rewrite (main_connected w _ _ _ Hc Hconn).
  unfold main_try_block, get_vm_mapping, retrieve_memory_stats, execute_command.
  rewrite Hr, Hs.
  destruct (parse_vm_mapping out) as [|[k v] m] eqn:Hm; [contradiction|].
  set (width := fold_left Nat.max (map (@length ascii) (dict_values m)) (length v)).
  destruct (for_each_rows width (filter_relevant_lines (replace_vm_ids ((k, v) :: m) sout)))
    as (rows & Hf & He); [intros l Hl; eapply filtered_line_split; exact Hl|].
  exists width, rows; split; [reflexivity|]; split; [reflexivity|]; split; [exact Hf|].
  simpl; rewrite Hm; simpl.
  fold width; rewrite (print_table_rows width _ rows He); simpl.
  rewrite !app_nil_r; unfold table_prefix, connect_trace.
  rewrite <- !app_assoc; simpl; rewrite <- !app_assoc; reflexivity.
Qed.

Lemma py_max_props (xs : list nat) (m : nat) :
  py_max xs = ([], inl m) -> (forall x, In x xs -> x <= m) /\ In m xs.
Proof.
  destruct xs as [|x xs]; simpl; [discriminate|].
  intros H; injection H as <-.
  destruct (fold_max_bound xs x) as [H1 H2]; split.
  - intros y [<-|Hy]; auto.
  - apply fold_max_attained.
Qed.

(** ** C4 *)

(** C4: the name column is as wide as the longest VM name of the whole
    mapping (every name fits, and some name has exactly that length,
    whether or not its VM has a statistics row), and the line printed
    after the header is that width plus 90 dashes. *)
Theorem name_column_width_whole_mapping
    (w : world) (esxi_host esxi_user esxi_pass : str) (out err sout serr : list str) :
  credentials w = Some (esxi_host, esxi_user, esxi_pass) ->
  connection w = Connected ->
  esxcli_reply w = Replies out err ->
  memstats_reply w = Replies sout serr ->
  parse_vm_mapping out <> [] ->
  exists width rows,
    (forall name, In name (dict_values (parse_vm_mapping out)) -> length name <= width) /\
    (exists name, In name (dict_values (parse_vm_mapping out)) /\ length name = width) /\
    main w =
      (table_prefix esxi_host err serr
         ++ [Print (lit "Memory stats:"); Print (header_line width);
             Print (repeat "-"%char (width + 90))]
         ++ map Print rows ++ close_trace,
       inl tt).
Proof.
  intros Hc Hconn Hr Hs Hne.
  destruct (main_table w _ _ _ _ _ _ _ Hc Hconn Hr Hs Hne)
    as (width & rows & Hmax & _ & _ & Hmain).
  destruct (py_max_props _ _ Hmax) as [Hle Hin].
  exists width, rows; split; [|split].
  - intros name Hn; apply Hle, in_map, Hn.
  - apply in_map_iff in Hin as (name & Hl & Hn); exists name; auto.
  - exact Hmain.
Qed.

Lemma name_column_width_whole_mapping_witness :
  parse_vm_mapping (map lit ["WorldID,DisplayName,ConfigFile,ProcessID,VMXCartelID";
                             "1,web01,a.vmx,0,100"; "2,db01,b.vmx,0,200"]%string) <> [] /\
  exists width rows,
    (forall name, In name (dict_values (parse_vm_mapping
       (map lit ["WorldID,DisplayName,ConfigFile,ProcessID,VMXCartelID";
                 "1,web01,a.vmx,0,100"; "2,db01,b.vmx,0,200"]%string))) -> length name <= width) /\
    (exists name, In name (dict_values (parse_vm_mapping
       (map lit ["WorldID,DisplayName,ConfigFile,ProcessID,VMXCartelID";
                 "1,web01,a.vmx,0,100"; "2,db01,b.vmx,0,200"]%string))) /\ length name = width) /\
    main e2e_world =
      (table_prefix (lit "esxi01") [] []
         ++ [Print (lit "Memory stats:"); Print (header_line width);
             Print (repeat "-"%char (width + 90))]
         ++ map Print rows ++ close_trace,
       inl tt).
Proof.
  split; [vm_compute; discriminate|].
  apply (name_column_width_whole_mapping e2e_world (lit "esxi01") (lit "root") (lit "secret")
           _ [] (map lit ["vm.100 2048 512 100 20"; "vm.200 4096 1024 200 40"; "garbage line"]%string) []);
    try reflexivity.
  vm_compute; discriminate.
Defined.

(** ** C7 *)

(** C7: after the title, header and rule, the run prints exactly one
    formatted row per line kept by the filter, in the filter's order. *)
Theorem one_row_per_filtered_line
    (w : world) (esxi_host esxi_user esxi_pass : str) (out err sout serr : list str) :
  credentials w = Some (esxi_host, esxi_user, esxi_pass) ->
  connection w = Connected ->
  esxcli_reply w = Replies out err ->
  memstats_reply w = Replies sout serr ->
  parse_vm_mapping out <> [] ->
  exists width rows,
    length rows = length (filter_relevant_lines (replace_vm_ids (parse_vm_mapping out) sout)) /\
    Forall2 (fun line row => format_row width (split_ws line) = Some row)
      (filter_relevant_lines (replace_vm_ids (parse_vm_mapping out) sout)) rows /\
    main w =
      (table_prefix esxi_host err serr
         ++ [Print (lit "Memory stats:"); Print (header_line width); Print (separator width)]
         ++ map Print rows ++ close_trace,
       inl tt).
Proof.
  intros Hc Hconn Hr Hs Hne.
  destruct (main_table w _ _ _ _ _ _ _ Hc Hconn Hr Hs Hne)
    as (width & rows & _ & _ & Hf & Hmain).
  exists width, rows; split; [|split; assumption].
  symmetry; exact (Forall2_length Hf).
Qed.

Lemma one_row_per_filtered_line_witness :
  parse_vm_mapping (esxcli_stdout e2e_world) <> [] /\
  exists width rows,
    length rows = length (filter_relevant_lines
      (replace_vm_ids (parse_vm_mapping (esxcli_stdout e2e_world)) (memstats_stdout e2e_world))) /\
    Forall2 (fun line row => format_row width (split_ws line) = Some row)
      (filter_relevant_lines
        (replace_vm_ids (parse_vm_mapping (esxcli_stdout e2e_world)) (memstats_stdout e2e_world)))
      rows /\
    main e2e_world =
      (table_prefix (lit "esxi01") [] []
         ++ [Print (lit "Memory stats:"); Print (header_line width); Print (separator width)]
         ++ map Print rows ++ close_trace,
       inl tt).
Proof.
  split; [vm_compute; discriminate|].
  apply (one_row_per_filtered_line e2e_world (lit "esxi01") (lit "root") (lit "secret")
           _ [] _ []); try reflexivity.
  vm_compute; discriminate.
Defined.

(** * Further properties of the script *)

(** ** The mapping built from the listing *)

(** The identifiers of the listing lines that pass the column guard. *)
Definition listing_ids (lines : list str) : list str :=
  flat_map (fun l => match parse_vm_line l with Some (k, _) => [k] | None => [] end) lines.

(** First occurrences of a list, in order. *)
Definition first_occurrences (l : list str) : list str :=
  rev (nodup (list_eq_dec ascii_dec) (rev l)).

Lemma dict_set_keys (k v : str) (d : dict) :
  map fst (dict_set k v d) = if in_dec (list_eq_dec ascii_dec) k (map fst d)
                             then map fst d else map fst d ++ [k].
Proof.
  induction d as [|[k' v'] d IH]; [reflexivity|].
  cbn [dict_set].
  destruct (list_eq_dec ascii_dec k k') as [->|Hne]; cbn [map fst].
  - destruct (in_dec (list_eq_dec ascii_dec) k' (k' :: map fst d)) as [_|H];
      [reflexivity | exfalso; apply H; left; reflexivity].
  - rewrite IH.
    destruct (in_dec (list_eq_dec ascii_dec) k (map fst d)) as [Hin|Hin];
    cbn [app];
    destruct (in_dec (list_eq_dec ascii_dec) k (k' :: map fst d)) as [Hin'|Hin'];
      try reflexivity; exfalso.
    + apply Hin'; right; exact Hin.
    + destruct Hin' as [E|E]; [congruence | contradiction].
Qed.

Lemma first_occurrences_snoc (l : list str) (k : str) :
  first_occurrences (l ++ [k]) =
    if in_dec (list_eq_dec ascii_dec) k (first_occurrences l)
    then first_occurrences l else first_occurrences l ++ [k].
Proof.
  unfold first_occurrences; rewrite rev_app_distr; simpl.
  destruct (in_dec (list_eq_dec ascii_dec) k (rev l)) as [H|H];
  destruct (in_dec (list_eq_dec ascii_dec) k (rev (nodup (list_eq_dec ascii_dec) (rev l))))
    as [H'|H']; auto.
  - exfalso; apply H'; rewrite <- in_rev; apply nodup_In; exact H.
  - exfalso; apply H; rewrite <- in_rev in H'.
    apply nodup_In in H'; exact H'.
Qed.

Lemma mapping_keys_fold (lines : list str) (d : dict) (seen : list str) :
  map fst d = first_occurrences seen ->
  map fst (fold_left vm_mapping_step lines d) = first_occurrences (seen ++ listing_ids lines).
Proof.
  revert d seen; induction lines as [|l lines IH]; intros d seen H; simpl.
  - rewrite app_nil_r; exact H.
  - unfold vm_mapping_step at 2.
    destruct (parse_vm_line l) as [[k v]|] eqn:E; simpl.
    + rewrite (IH _ (seen ++ [k])), <- app_assoc; [reflexivity|].
      rewrite dict_set_keys, first_occurrences_snoc, H; reflexivity.
    + apply IH; exact H.
Qed.

Lemma mapping_keys_first_occurrences (output : list str) :
  map fst (parse_vm_mapping output) = first_occurrences (listing_ids (skipn 1 output)).
Proof.
  unfold parse_vm_mapping.
  rewrite (mapping_keys_fold _ [] []); reflexivity.
Qed.

(** X1: the mapping lists each identifier once, in the order of its first
    appearance among the listing lines after the header; a later line with
    the same identifier updates the name in place (stage 1 substitutes in
    this order). *)
Theorem vm_mapping_id_order (output : list str) :
  map fst (parse_vm_mapping output) = first_occurrences (listing_ids (skipn 1 output)).
Proof. apply mapping_keys_first_occurrences. Qed.

(** X2: no identifier appears twice in the mapping. *)
Theorem vm_mapping_ids_unique (output : list str) :
  NoDup (map fst (parse_vm_mapping output)).
Proof.
  rewrite mapping_keys_first_occurrences; unfold first_occurrences.
  apply NoDup_rev, NoDup_nodup.
Qed.

Lemma dict_set_in (k v k' v' : str) (d : dict) :
  In (k', v') (dict_set k v d) -> (k', v') = (k, v) \/ In (k', v') d.
Proof.
  induction d as [|[a b] d IH]; simpl.
  - intros [E|[]]; left; congruence.
  - destruct (list_eq_dec ascii_dec k a) as [->|Hne]; simpl.
    + intros [E|E]; [left; congruence | right; right; exact E].
    + intros [E|E]; [right; left; exact E|].
      destruct (IH E); auto.
Qed.

Lemma mapping_entries_fold (lines : list str) (d : dict) (k v : str) :
  In (k, v) (fold_left vm_mapping_step lines d) ->
  In (k, v) d \/ exists l, In l lines /\ parse_vm_line l = Some (k, v).
Proof.
  revert d; induction lines as [|l lines IH]; intros d H; simpl in *; auto.
  destruct (IH _ H) as [Hd|(l' & Hl' & E)]; [|right; exists l'; auto].
  unfold vm_mapping_step in Hd.
  destruct (parse_vm_line l) as [[k' v']|] eqn:E; auto.
  destruct (dict_set_in _ _ _ _ _ Hd) as [Eq|Hd']; auto.
  injection Eq as -> ->; right; exists l; auto.
Qed.

Lemma mapping_entries_from_listing (output : list str) (k v : str) :
  In (k, v) (parse_vm_mapping output) ->
  exists l, In l (skipn 1 output) /\ parse_vm_line l = Some (k, v).
Proof.
  unfold parse_vm_mapping; intros H.
  destruct (mapping_entries_fold _ _ _ _ H) as [[]|Hl]; exact Hl.
Qed.

(** X3: every entry of the mapping comes from a listing line after the
    header that has at least five comma-separated fields, as its fifth
    and second fields. *)
Theorem vm_mapping_entries_sound (output : list str) (vm_id vm_name : str) :
  In (vm_id, vm_name) (parse_vm_mapping output) ->
  exists line, In line (skipn 1 output) /\ parse_vm_line line = Some (vm_id, vm_name).
Proof. apply mapping_entries_from_listing. Qed.

Lemma vm_mapping_entries_sound_witness :
  In (lit "100", lit "web01")
     (parse_vm_mapping (map lit ["WorldID,DisplayName,ConfigFile,ProcessID,VMXCartelID";
                                 "1, web01 ,a.vmx,0, 100"]%string)) /\
  exists line, In line (skipn 1 (map lit ["WorldID,DisplayName,ConfigFile,ProcessID,VMXCartelID";
                                          "1, web01 ,a.vmx,0, 100"]%string))
               /\ parse_vm_line line = Some (lit "100", lit "web01").
Proof.
  assert (H : In (lit "100", lit "web01")
     (parse_vm_mapping (map lit ["WorldID,DisplayName,ConfigFile,ProcessID,VMXCartelID";
                                 "1, web01 ,a.vmx,0, 100"]%string))) by (vm_compute; left; reflexivity).
  split; [exact H | apply vm_mapping_entries_sound; exact H].
Defined.

(** X4: a listing line after the header with fewer than five
    comma-separated fields contributes nothing: the mapping is the one of
    the listing without it. *)
Theorem vm_mapping_column_guard (pre post : list str) (line : str) :
  pre <> [] ->
  length (split_char ","%char (strip line)) < 5 ->
  parse_vm_mapping (pre ++ line :: post) = parse_vm_mapping (pre ++ post).
Proof.
  intros Hpre Hlen; destruct pre as [|h pre]; [contradiction|].
  assert (Hs : forall d, vm_mapping_step d line = d).
  { intros d; unfold vm_mapping_step, parse_vm_line.
    destruct (5 <=? length (split_char ","%char (strip line))) eqn:E; [|reflexivity].
    apply Nat.leb_le in E; lia. }
  unfold parse_vm_mapping; simpl; rewrite !fold_left_app; simpl.
  rewrite Hs; reflexivity.
Qed.

Lemma vm_mapping_column_guard_witness :
  [lit "hdr"] <> [] /\ length (split_char ","%char (strip (lit "1,web01,a.vmx"))) < 5 /\
  parse_vm_mapping ([lit "hdr"] ++ lit "1,web01,a.vmx" :: [lit "2,db01,b.vmx,0,200"])
  = parse_vm_mapping ([lit "hdr"] ++ [lit "2,db01,b.vmx,0,200"]).
Proof.
  split; [discriminate|]. split; [vm_compute; lia|].
  apply vm_mapping_column_guard; [discriminate | vm_compute; lia].
Defined.

(** ** Stripping is idempotent *)

Lemma lstrip_suffix (s : str) : exists p, s = p ++ lstrip s.
Proof.
  induction s as [|c s [p IH]]; simpl; [exists []; reflexivity|].
  destruct (is_space c); [exists (c :: p); simpl; congruence | exists []; reflexivity].
Qed.

Lemma lstrip_idem (s : str) : lstrip (lstrip s) = lstrip s.
Proof.
  induction s as [|c s IH]; simpl; auto.
  destruct (is_space c) eqn:E; auto; simpl; rewrite E; reflexivity.
Qed.

Lemma lstrip_strip (s : str) : lstrip (strip s) = strip s.
Proof.
  unfold strip, rstrip.
  destruct (lstrip_suffix (rev (lstrip s))) as [p Hp].
  apply (f_equal (@rev ascii)) in Hp; rewrite rev_involutive, rev_app_distr in Hp.
  destruct (rev (lstrip (rev (lstrip s)))) as [|c z] eqn:Ez; [reflexivity|].
  simpl in Hp.
  simpl; rewrite (lstrip_head s _ c Hp); reflexivity.
Qed.

Lemma strip_idem (s : str) : strip (strip s) = strip s.
Proof.
  unfold strip at 1, rstrip; rewrite lstrip_strip.
  unfold strip at 1 2, rstrip; rewrite rev_involutive, lstrip_idem; reflexivity.
Qed.

Lemma in_lstrip (c : ascii) (s : str) : In c (lstrip s) -> In c s.
Proof.
  destruct (lstrip_suffix s) as [p Hp]; intros H; rewrite Hp; apply in_or_app; auto.
Qed.

Lemma in_strip (c : ascii) (s : str) : In c (strip s) -> In c s.
Proof.
  unfold strip, rstrip; intros H.
  rewrite <- in_rev in H; apply in_lstrip in H; rewrite <- in_rev in H.
  apply in_lstrip; exact H.
Qed.

(** ** Fields of the listing *)

Lemma split_char_go_no_sep (sep : ascii) (s cur : str) :
  ~ In sep cur -> forall p, In p (split_char_go sep s cur) -> ~ In sep p.
Proof.
  revert cur; induction s as [|c s IH]; intros cur Hcur p; simpl.
  - intros [<-|[]] Hin; apply Hcur, in_rev; exact Hin.
  - destruct (Ascii.eqb c sep) eqn:E.
    + intros [<-|Hp] Hin; [apply Hcur, in_rev; exact Hin|].
      apply (IH [] (fun H => H) p Hp Hin).
    + apply IH; intros [Hc|Hc]; [|contradiction].
      subst; rewrite Ascii.eqb_refl in E; discriminate.
Qed.

Lemma nth_field_no_sep (sep : ascii) (s : str) (n : nat) :
  ~ In sep (nth n (split_char sep s) []).
Proof.
  destruct (Nat.lt_ge_cases n (length (split_char sep s))) as [Hl|Hl].
  - apply (split_char_go_no_sep sep s [] (fun H => H)), nth_In, Hl.
  - rewrite nth_overflow by exact Hl; simpl; auto.
Qed.

(** X5: every identifier and name of the mapping is stripped of
    surrounding whitespace and contains no comma. *)
Theorem vm_mapping_fields_clean (output : list str) (vm_id vm_name : str) :
  In (vm_id, vm_name) (parse_vm_mapping output) ->
  strip vm_id = vm_id /\ strip vm_name = vm_name /\
  ~ In ","%char vm_id /\ ~ In ","%char vm_name.
Proof.
  intros H.
  destruct (mapping_entries_from_listing _ _ _ H) as (line & _ & E).
  unfold parse_vm_line in E.
  destruct (5 <=? length (split_char ","%char (strip line))); [|discriminate].
  injection E as <- <-.
  split; [apply strip_idem|]. split; [apply strip_idem|].
  split; intros Hc; apply in_strip in Hc; eapply nth_field_no_sep; exact Hc.
Qed.

Lemma vm_mapping_fields_clean_witness :
  In (lit "100", lit "web01")
     (parse_vm_mapping (map lit ["WorldID,DisplayName,ConfigFile,ProcessID,VMXCartelID";
                                 "1, web01 ,a.vmx,0, 100"]%string)) /\
  strip (lit "100") = lit "100" /\ strip (lit "web01") = lit "web01" /\
  ~ In ","%char (lit "100") /\ ~ In ","%char (lit "web01").
Proof.
  assert (H : In (lit "100", lit "web01")
     (parse_vm_mapping (map lit ["WorldID,DisplayName,ConfigFile,ProcessID,VMXCartelID";
                                 "1, web01 ,a.vmx,0, 100"]%string))) by (vm_compute; left; reflexivity).
  split; [exact H | apply (vm_mapping_fields_clean _ _ _ H)].
Defined.

(** ** The filter *)

(** X6: filtering twice keeps the same lines as filtering once: the kept
    lines are already stripped and still match the pattern. *)
Theorem filter_relevant_lines_idempotent (memstats_output : list str) :
  filter_relevant_lines (filter_relevant_lines memstats_output)
  = filter_relevant_lines memstats_output.
Proof.
  induction memstats_output as [|line rest IH]; simpl; auto.
  destruct (data_pattern (strip line)) eqn:E; auto.
  simpl; rewrite strip_idem, E, IH; reflexivity.
Qed.

(** ** Layout of the table *)

Lemma ljust_length (w : nat) (s : str) : length (ljust w s) = Nat.max w (length s).
Proof. unfold ljust; rewrite length_app, repeat_length; lia. Qed.

(** X7: a formatted row is as long as its five fields, each padded to its
    column width (name width, 15, 15, 20, 20), plus four two-space gaps;
    any further arguments are ignored. *)
Theorem format_row_length (w : nat) (a b c d e : str) (rest : list str) :
  exists row, format_row w (a :: b :: c :: d :: e :: rest) = Some row /\
    length row = Nat.max w (length a) + Nat.max 15 (length b) + Nat.max 15 (length c)
                 + Nat.max 20 (length d) + Nat.max 20 (length e) + 8.
Proof.
  eexists; split; [reflexivity|].
  rewrite !length_app, !ljust_length; simpl; lia.
Qed.

(** X8: the header line is [max(width, 7) + 78] characters long and the
    rule under it [width + 90], so the rule overhangs the header by 12
    characters once the width reaches the length of "VM Name". *)
Theorem header_and_rule_lengths (w : nat) :
  length (header_line w) = Nat.max w 7 + 78 /\ length (separator w) = w + 90.
Proof.
  unfold header_line, separator; rewrite !length_app, !ljust_length, repeat_length.
  simpl; lia.
Qed.

(** ** Paths of the run *)

(** X9: when the connection is refused, the run prints the failure and
    the exit message and ends normally: no command is run and there is no
    session to close. *)
Theorem connection_refused_run (w : world) (esxi_host esxi_user esxi_pass msg : str) :
  credentials w = Some (esxi_host, esxi_user, esxi_pass) ->
  connection w = Refused msg ->
  main w = ([Print (lit "Connecting to " ++ esxi_host ++ lit "...");
             Print (lit "Failed to connect: " ++ msg);
             Print (lit "Exiting due to connection failure.")], inl tt).
Proof.
  intros Hc Hconn; unfold main, read_credentials_from_xml, connect_to_esxi.
  rewrite Hc, Hconn; reflexivity.
Qed.

Definition refused_world : world := {|
  credentials := Some (lit "esxi01", lit "root", lit "secret");
  connection := Refused (lit "Authentication failed.");
  esxcli_reply := Raises;
  memstats_reply := Raises
|}.

Lemma connection_refused_run_witness :
  main refused_world =
    ([Print (lit "Connecting to " ++ lit "esxi01" ++ lit "...");
      Print (lit "Failed to connect: " ++ lit "Authentication failed.");
      Print (lit "Exiting due to connection failure.")], inl tt).
Proof.
  apply (connection_refused_run refused_world (lit "esxi01") (lit "root") (lit "secret")
           (lit "Authentication failed.")); reflexivity.
Defined.

(** X10: when the listing command raises, the session is closed and the
    exception propagates; the statistics command is never run. *)
Theorem listing_failure_run (w : world) (esxi_host esxi_user esxi_pass : str) :
  credentials w = Some (esxi_host, esxi_user, esxi_pass) ->
  connection w = Connected ->
  esxcli_reply w = Raises ->
  main w = (connect_trace esxi_host
              ++ [Print (lit "Retrieving VM names and IDs..."); RunCmd esxcli_command]
              ++ close_trace,
            inr SSHException).
Proof.
  intros Hc Hconn Hr; rewrite (main_connected w _ _ _ Hc Hconn).
  unfold main_try_block, get_vm_mapping, execute_command; rewrite Hr; reflexivity.
Qed.

Definition listing_failing_world : world := {|
  credentials := Some (lit "esxi01", lit "root", lit "secret");
  connection := Connected;
  esxcli_reply := Raises;
  memstats_reply := memstats_reply e2e_world
|}.

Lemma listing_failure_run_witness :
  main listing_failing_world
  = (connect_trace (lit "esxi01")
       ++ [Print (lit "Retrieving VM names and IDs..."); RunCmd esxcli_command]
       ++ close_trace, inr SSHException).
Proof.
  apply (listing_failure_run _ (lit "esxi01") (lit "root") (lit "secret")); reflexivity.
Defined.

(** X11: when the statistics command raises (the mapping being non-empty),
    the session is closed and the exception propagates; no part of the
    table is printed. *)
Theorem stats_failure_run (w : world) (esxi_host esxi_user esxi_pass : str) (out err : list str) :
  credentials w = Some (esxi_host, esxi_user, esxi_pass) ->
  connection w = Connected ->
  esxcli_reply w = Replies out err ->
  parse_vm_mapping out <> [] ->
  memstats_reply w = Raises ->
  main w = (connect_trace esxi_host
              ++ [Print (lit "Retrieving VM names and IDs..."); RunCmd esxcli_command]
              ++ stderr_report err
              ++ [Print (lit "Retrieving memory stats for VMs backed by NVMe...");
                  RunCmd memstats_command]
              ++ close_trace,
            inr SSHException).
Proof.
  intros Hc Hconn Hr Hne Hs; rewrite (main_connected w _ _ _ Hc Hconn).
  unfold main_try_block, get_vm_mapping, retrieve_memory_stats, execute_command.
  rewrite Hr, Hs; simpl.
  destruct (parse_vm_mapping out) as [|p m]; [contradiction|]; simpl.
  rewrite !app_nil_r, <- !app_assoc; reflexivity.
Qed.

Lemma stats_failure_run_witness :
  parse_vm_mapping (esxcli_stdout failing_stats_world) <> [] /\
  main failing_stats_world =
    (connect_trace (lit "esxi01")
       ++ [Print (lit "Retrieving VM names and IDs..."); RunCmd esxcli_command]
       ++ stderr_report []
       ++ [Print (lit "Retrieving memory stats for VMs backed by NVMe...");
           RunCmd memstats_command]
       ++ close_trace, inr SSHException).
Proof.
  split; [vm_compute; discriminate|].
  apply (stats_failure_run _ (lit "esxi01") (lit "root") (lit "secret")
           (esxcli_stdout failing_stats_world) []); try reflexivity.
  vm_compute; discriminate.
Defined.

(** X12: when no statistics line qualifies, the run still prints the
    title, the header and the rule, with no data row, and ends normally. *)
Theorem no_data_rows_run
    (w : world) (esxi_host esxi_user esxi_pass : str) (out err sout serr : list str) :
  credentials w = Some (esxi_host, esxi_user, esxi_pass) ->
  connection w = Connected ->
  esxcli_reply w = Replies out err ->
  memstats_reply w = Replies sout serr ->
  parse_vm_mapping out <> [] ->
  filter_relevant_lines (replace_vm_ids (parse_vm_mapping out) sout) = [] ->
  exists width,
    main w =
      (table_prefix esxi_host err serr
         ++ [Print (lit "Memory stats:"); Print (header_line width); Print (separator width)]
         ++ close_trace,
       inl tt).
Proof.
  intros Hc Hconn Hr Hs Hne Hnil.
  destruct (main_table w _ _ _ _ _ _ _ Hc Hconn Hr Hs Hne)
    as (width & rows & _ & _ & Hf & Hmain).
  rewrite Hnil in Hf; inversion Hf; subst.
  exists width; exact Hmain.
Qed.

Definition garbage_world : world := {|
  credentials := Some (lit "esxi01", lit "root", lit "secret");
  connection := Connected;
  esxcli_reply := esxcli_reply e2e_world;
  memstats_reply := Replies (map lit ["VIRTUAL MACHINE TIER STATS"; "garbage line"]%string) []
|}.

Lemma no_data_rows_run_witness :
  filter_relevant_lines (replace_vm_ids (parse_vm_mapping (esxcli_stdout garbage_world))
                                        (memstats_stdout garbage_world)) = [] /\
  exists width,
    main garbage_world =
      (table_prefix (lit "esxi01") [] []
         ++ [Print (lit "Memory stats:"); Print (header_line width); Print (separator width)]
         ++ close_trace,
       inl tt).
Proof.
  split; [vm_compute; reflexivity|].
  apply (no_data_rows_run _ (lit "esxi01") (lit "root") (lit "secret")
           (esxcli_stdout garbage_world) [] (memstats_stdout garbage_world) []);
    try reflexivity; vm_compute; discriminate.
Defined.

Definition reply_without_stderr (r : reply) : reply :=
  match r with Replies out _ => Replies out [] | Raises => Raises end.

(** The same host, with nothing written on the commands' error streams. *)
Definition without_stderr (w : world) : world := {|
  credentials := credentials w;
  connection := connection w;
  esxcli_reply := reply_without_stderr (esxcli_reply w);
  memstats_reply := reply_without_stderr (memstats_reply w)
|}.

Lemma Forall2_rows_unique (width : nat) (lines rows1 rows2 : list str) :
  Forall2 (fun line row => format_row width (split_ws line) = Some row) lines rows1 ->
  Forall2 (fun line row => format_row width (split_ws line) = Some row) lines rows2 ->
  rows1 = rows2.
Proof.
  intros H1; revert rows2; induction H1 as [|l r1 ls rs1 E1 H1 IH]; intros rows2 H2;
    inversion H2 as [|l' r2 ls' rs2 E2 H2']; subst; auto.
  rewrite E1 in E2; injection E2 as ->; f_equal; auto.
Qed.

(** X13: output on the commands' error streams is only reported: the run
    prints one warning line per command that wrote any, then the same
    table as without that output, and ends normally. *)
Theorem stderr_only_warns
    (w : world) (esxi_host esxi_user esxi_pass : str) (out err sout serr : list str) :
  credentials w = Some (esxi_host, esxi_user, esxi_pass) ->
  connection w = Connected ->
  esxcli_reply w = Replies out err ->
  memstats_reply w = Replies sout serr ->
  parse_vm_mapping out <> [] ->
  exists table,
    main w = (table_prefix esxi_host err serr ++ table, inl tt) /\
    main (without_stderr w) = (table_prefix esxi_host [] [] ++ table, inl tt).
Proof.
  intros Hc Hconn Hr Hs Hne.
  destruct (main_table w _ _ _ _ _ _ _ Hc Hconn Hr Hs Hne)
    as (width & rows & Hmax & _ & Hf & Hmain).
  destruct (main_table (without_stderr w) esxi_host esxi_user esxi_pass out [] sout []
              Hc Hconn) as (width' & rows' & Hmax' & _ & Hf' & Hmain');
    [unfold without_stderr; simpl; rewrite Hr; reflexivity
    |unfold without_stderr; simpl; rewrite Hs; reflexivity
    |exact Hne|].
  rewrite Hmax in Hmax'; injection Hmax' as <-.
  rewrite (Forall2_rows_unique _ _ _ _ Hf' Hf) in Hmain'.
  eexists; split; [exact Hmain | exact Hmain'].
Qed.

Definition noisy_world : world := {|
  credentials := Some (lit "esxi01", lit "root", lit "secret");
  connection := Connected;
  esxcli_reply := Replies (esxcli_stdout e2e_world) [lit "Warning: deprecated option"];
  memstats_reply := Replies (memstats_stdout e2e_world) [lit "memstats: partial read"]
|}.

Lemma stderr_only_warns_witness :
  parse_vm_mapping (esxcli_stdout e2e_world) <> [] /\
  exists table,
    main noisy_world =
      (table_prefix (lit "esxi01") [lit "Warning: deprecated option"]
                    [lit "memstats: partial read"] ++ table, inl tt) /\
    main (without_stderr noisy_world) = (table_prefix (lit "esxi01") [] [] ++ table, inl tt).
Proof.
  split; [vm_compute; discriminate|].
  apply (stderr_only_warns noisy_world (lit "esxi01") (lit "root") (lit "secret")
           (esxcli_stdout e2e_world) [lit "Warning: deprecated option"]
           (memstats_stdout e2e_world) [lit "memstats: partial read"]);
    try reflexivity; vm_compute; discriminate.
Defined.
